(** * s3_fs: importing buckets and files from an S3 store

    A shallow embedding of [src/modules/s3_fs.py].  The module holds two
    functions, [import_bucket_from_ssp_cloud] and
    [import_file_from_ssp_cloud]; each calls the [get] method of a
    filesystem object once inside a [try] block, prints one line, and
    handles some exception classes.

    Python effects are modelled by a state-and-exception monad over a
    [world] that holds the state of the filesystem object, the local
    files, the lines printed on standard output, and a log of the calls
    made to [get]. *)

From stdpp Require Import base strings gmap list.
From Stdlib Require Import Strings.Byte.

Local Open Scope string_scope.
Local Open Scope list_scope.

Set Warnings "-register-all".

(** ** Python exceptions *)

(** The part of the built-in exception hierarchy that matters here, closed
    under user-defined subclasses.  A user class names its base classes;
    Python lets it have several, so that one class can derive from both
    [PermissionError] and [FileNotFoundError]. *)
Inductive exn_class : Type :=
  | BaseException
  | Exception
  | OSError
  | PermissionError
  | FileNotFoundError
  | ConnectionError
  | TimeoutError
  | ValueError
  | KeyboardInterrupt
  | Subclass (name : string) (bases : list exn_class).

#[global] Instance exn_class_eq_dec : EqDecision exn_class.
Proof.
  refine (
    fix go (c d : exn_class) : Decision (c = d) :=
      let _ : EqDecision exn_class := @go in
      match c, d with
      | BaseException, BaseException => left _
      | Exception, Exception => left _
      | OSError, OSError => left _
      | PermissionError, PermissionError => left _
      | FileNotFoundError, FileNotFoundError => left _
      | ConnectionError, ConnectionError => left _
      | TimeoutError, TimeoutError => left _
      | ValueError, ValueError => left _
      | KeyboardInterrupt, KeyboardInterrupt => left _
      | Subclass n1 bs1, Subclass n2 bs2 =>
          cast_if_and (decide (n1 = n2)) (decide (bs1 = bs2))
      | _, _ => right _
      end); congruence.
Defined.

(** The classes an instance of [c] is an instance of: [c] and all its
    ancestors.  For the built-in classes this is the method resolution
    order; for a user class only membership is meant, not the order. *)
Fixpoint mro (c : exn_class) : list exn_class :=
  match c with
  | BaseException => [BaseException]
  | Exception => [Exception; BaseException]
  | OSError => [OSError; Exception; BaseException]
  | PermissionError => [PermissionError; OSError; Exception; BaseException]
  | FileNotFoundError => [FileNotFoundError; OSError; Exception; BaseException]
  | ConnectionError => [ConnectionError; OSError; Exception; BaseException]
  | TimeoutError => [TimeoutError; OSError; Exception; BaseException]
  | ValueError => [ValueError; Exception; BaseException]
  | KeyboardInterrupt => [KeyboardInterrupt; BaseException]
  | Subclass name bases => Subclass name bases :: concat (map mro bases)
  end.

Definition issubclass (c d : exn_class) : bool := bool_decide (d ∈ mro c).

(** An exception instance: its class and its message. *)
Record exn : Type := Exn { exn_type : exn_class; exn_msg : string }.

Definition isinstance (e : exn) (c : exn_class) : bool :=
  issubclass (exn_type e) c.

(** ** Python values and outcomes *)

Inductive value : Type :=
  | VNone
  | VBool (b : bool)
  | VStr (s : string).

(** A call either returns a value or raises. *)
Inductive outcome (A : Type) : Type :=
  | Returned (a : A)
  | Raised (e : exn).
Arguments Returned {A} a.
Arguments Raised {A} e.

(** ** The filesystem object and the world *)

(** The arguments of one call [fs_obj.get(source, destination, ...)].
    [ga_recursive] is [None] when the keyword [recursive] is not passed. *)
Record get_args : Type := GetArgs {
  ga_source : string;
  ga_destination : string;
  ga_recursive : option bool
}.

Section S3FS.

(** The private state of the filesystem object (connection, remote store). *)
Variable H : Type.

(** [fs_obj]: any object with a [get] method.  The method reads and updates
    the object's state and the local files, then returns or raises. *)
Record S3FileSystem : Type := {
  get : get_args → H → gmap string (list byte) →
        outcome value * (H * gmap string (list byte))
}.

Record world : Type := World {
  handle_state : H;
  local_files : gmap string (list byte);
  stdout : list string;
  get_calls : list get_args
}.

Definition M (A : Type) : Type := world → outcome A * world.

Definition ret {A : Type} (a : A) : M A := λ w, (Returned a, w).

Definition bind {A B : Type} (m : M A) (k : A → M B) : M B :=
  λ w, match m w with
       | (Returned a, w') => k a w'
       | (Raised e, w') => (Raised e, w')
       end.

(** The first [except] clause whose class the exception is an instance of. *)
Fixpoint find_handler {A : Type} (e : exn) (handlers : list (exn_class * M A))
  : option (M A) :=
  match handlers with
  | [] => None
  | (c, h) :: rest => if isinstance e c then Some h else find_handler e rest
  end.

(** [try: body  except C1: h1  except C2: h2 ...] *)
Definition try_except {A : Type} (body : M A) (handlers : list (exn_class * M A))
  : M A :=
  λ w, match body w with
       | (Returned a, w') => (Returned a, w')
       | (Raised e, w') =>
           match find_handler e handlers with
           | Some h => h w'
           | None => (Raised e, w')
           end
       end.

(** [print(s)]: one more line on standard output. *)
Definition print (s : string) : M value :=
  λ w, (Returned VNone,
        {| handle_state := handle_state w;
           local_files := local_files w;
           stdout := stdout w ++ [s];
           get_calls := get_calls w |}).

(** [fs_obj.get(...)]: the call is logged, the method runs. *)
Definition call_get (fs_obj : S3FileSystem) (a : get_args) : M value :=
  λ w, let '(r, (h', f')) := get fs_obj a (handle_state w) (local_files w) in
       (r, {| handle_state := h';
              local_files := f';
              stdout := stdout w;
              get_calls := get_calls w ++ [a] |}).

End S3FS.

Arguments get {H} _ _ _ _.
Arguments Build_S3FileSystem {H} _.
Arguments World {H} _ _ _ _.
Arguments handle_state {H} _.
Arguments local_files {H} _.
Arguments stdout {H} _.
Arguments get_calls {H} _.
Arguments ret {H A} _ _.
Arguments bind {H A B} _ _ _.
Arguments find_handler {H A} _ _.
Arguments try_except {H A} _ _ _.
Arguments print {H} _ _.
Arguments call_get {H} _ _ _.

Notation "m1 >> m2" := (bind m1 (λ _, m2))
  (at level 61, left associativity).

(** ** The messages *)

Definition bucket_downloaded (x y : string) : string :=
  "The bucket " +:+ x +:+ " has been downloaded to " +:+ y.

Definition file_downloaded (x y : string) : string :=
  "The file " +:+ x +:+ " has been downloaded to " +:+ y.

Definition no_permission (x : string) : string :=
  "You tried to import " +:+ x +:+ " but you do not have the right permission" +:+ " to do so !".

Definition does_not_exist (x : string) : string :=
  "The file " +:+ x +:+ " does not exist".

(** ** The two functions of the module *)

(** [def import_bucket_from_ssp_cloud(fs_obj, source_bucket_name,
    destination_folder, recursive=True)].  [recursive_arg] is [None] when
    the caller omits the fourth argument. *)
Definition import_bucket_from_ssp_cloud {H : Type} (fs_obj : S3FileSystem H)
    (source_bucket_name destination_folder : string)
    (recursive_arg : option bool) : M H value :=
  let recursive := default true recursive_arg in
  try_except
    (call_get fs_obj (GetArgs source_bucket_name destination_folder (Some recursive)) >>
     print (bucket_downloaded source_bucket_name destination_folder))
    [(PermissionError, print (no_permission source_bucket_name))] >>
  ret VNone.

(** [def import_file_from_ssp_cloud(fs_obj, source_file_name,
    destination_file_path)]. *)
Definition import_file_from_ssp_cloud {H : Type} (fs_obj : S3FileSystem H)
    (source_file_name destination_file_path : string) : M H value :=
  try_except
    (call_get fs_obj (GetArgs source_file_name destination_file_path None) >>
     print (file_downloaded source_file_name destination_file_path))
    [(PermissionError, print (no_permission source_file_name));
     (FileNotFoundError, print (does_not_exist source_file_name))] >>
  ret VNone.

(** [mentions msg x]: the text [x] occurs in the message [msg]. *)
Definition mentions (msg x : string) : Prop :=
  ∃ pre post : string, msg = pre +:+ x +:+ post.

(** ** A test double for the filesystem object

    Its state is the remote store (object key to content).  Two keys are
    special: reading ["bucket/secret"] is refused, and ["bucket/offline"]
    fails with a connection error.  Any other key is copied to the
    destination when the store has it, and is not found otherwise. *)
Definition mock_get (a : get_args) (h f : gmap string (list byte))
  : outcome value * (gmap string (list byte) * gmap string (list byte)) :=
  if String.eqb (ga_source a) "bucket/secret" then
    (Raised (Exn PermissionError "Access Denied"), (h, f))
  else if String.eqb (ga_source a) "bucket/offline" then
    (Raised (Exn ConnectionError "Connection reset"), (h, f))
  else
    match h !! ga_source a with
    | Some c => (Returned VNone, (h, <[ga_destination a := c]> f))
    | None => (Raised (Exn FileNotFoundError (ga_source a)), (h, f))
    end.

Definition mock_fs : S3FileSystem (gmap string (list byte)) :=
  {| get := mock_get |}.

Definition readme : list byte := String.list_byte_of_string "hello".

Definition mock_store : gmap string (list byte) :=
  {[ "bucket/readme.txt" := readme ]}.

(** The world before anything ran: nothing on disk, nothing printed. *)
Definition w0 : world (gmap string (list byte)) := World mock_store ∅ [] [].

(** ** The script run by [if __name__ == "__main__":] *)

(** [KeyError] and its base [LookupError], as subclasses of [Exception]. *)
Definition LookupError : exn_class := Subclass "LookupError" [Exception].
Definition KeyError : exn_class := Subclass "KeyError" [LookupError].

(** [os.environ[key]]: the value of the variable, [KeyError(key)] when the
    variable is not set. *)
Definition environ_getitem {H : Type} (environ : gmap string string)
    (key : string) : M H string :=
  λ w, match environ !! key with
       | Some v => (Returned v, w)
       | None => (Raised (Exn KeyError key), w)
       end.

(** [s3fs.S3FileSystem(client_kwargs={"endpoint_url": endpoint_url})].  The
    constructor belongs to the [s3fs] library: [s3fs_S3FileSystem] stands
    for it.  It sees the endpoint URL and the library's state, and gives the
    filesystem object or raises. *)
Definition new_S3FileSystem {H : Type}
    (s3fs_S3FileSystem : string → H → outcome (S3FileSystem H) * H)
    (endpoint_url : string) : M H (S3FileSystem H) :=
  λ w, let '(r, h') := s3fs_S3FileSystem endpoint_url (handle_state w) in
       (r, World h' (local_files w) (stdout w) (get_calls w)).

(** The body of the script: read the endpoint, build the filesystem object,
    import two buckets and two files. *)
Definition main {H : Type} (environ : gmap string string)
    (s3fs_S3FileSystem : string → H → outcome (S3FileSystem H) * H)
  : M H unit :=
  bind (environ_getitem environ "AWS_S3_ENDPOINT") (λ endpoint,
  let S3_ENDPOINT_URL := "https://" +:+ endpoint in
  bind (new_S3FileSystem s3fs_S3FileSystem S3_ENDPOINT_URL) (λ fs,
    import_bucket_from_ssp_cloud fs "maximerichaudeau1/data" "./data" None >>
    import_bucket_from_ssp_cloud fs "maximerichaudeau1/json" "./json" None >>
    import_file_from_ssp_cloud fs
      "maximerichaudeau1/cross_entropy_weighted10_batch64_32_16.pth"
      "./cross_entropy_weighted10_batch64_32_16.pth" >>
    import_file_from_ssp_cloud fs "maximerichaudeau1/test.txt" "./test.txt" >>
    ret ())).

(** The calls to [get] that a complete run of the script makes, in order. *)
Definition main_transfers : list get_args :=
  [ GetArgs "maximerichaudeau1/data" "./data" (Some true);
    GetArgs "maximerichaudeau1/json" "./json" (Some true);
    GetArgs "maximerichaudeau1/cross_entropy_weighted10_batch64_32_16.pth"
            "./cross_entropy_weighted10_batch64_32_16.pth" None;
    GetArgs "maximerichaudeau1/test.txt" "./test.txt" None ].

(** [fails_only_with handled fs_obj]: every failure of [get] is an instance of
    one of the classes [handled]. *)
Definition fails_only_with {H : Type} (handled : list exn_class)
    (fs_obj : S3FileSystem H) : Prop :=
  ∀ (a : get_args) (h : H) (f : gmap string (list byte)) (e : exn),
    (get fs_obj a h f).1 = Raised e →
    existsb (isinstance e) handled = true.

(** A second test double: a store that refuses every key it does not hold. *)
Definition private_get (a : get_args) (h f : gmap string (list byte))
  : outcome value * (gmap string (list byte) * gmap string (list byte)) :=
  match h !! ga_source a with
  | Some c => (Returned VNone, (h, <[ga_destination a := c]> f))
  | None => (Raised (Exn PermissionError "Access Denied"), (h, f))
  end.

Definition private_fs : S3FileSystem (gmap string (list byte)) :=
  {| get := private_get |}.

(** Constructors for the test doubles; the endpoint is not looked at. *)
Definition connect_mock (endpoint_url : string) (h : gmap string (list byte))
  : outcome (S3FileSystem (gmap string (list byte))) * gmap string (list byte) :=
  (Returned mock_fs, h).

Definition connect_private (endpoint_url : string) (h : gmap string (list byte))
  : outcome (S3FileSystem (gmap string (list byte))) * gmap string (list byte) :=
  (Returned private_fs, h).

Definition demo_environ : gmap string string :=
  {[ "AWS_S3_ENDPOINT" := "minio.lab.sspcloud.fr" ]}.

(** [class Gone(FileNotFoundError, PermissionError): pass], a class with
    two bases, and a third test double whose [get] always raises it. *)
Definition Gone : exn_class :=
  Subclass "Gone" [FileNotFoundError; PermissionError].

Definition gone_fs : S3FileSystem unit :=
  {| get := λ _ h f, (Raised (Exn Gone "gone"), (h, f)) |}.

Definition w_gone : world unit := World () ∅ [] [].

(** ** Exception classes *)

Lemma issubclass_refl (c : exn_class) : issubclass c c = true.
Proof.
  unfold issubclass. apply bool_decide_eq_true.
  destruct c; simpl; left.
Qed.

(** ** Running the two functions *)

Section Run.

Context {H : Type}.
Implicit Types (fs_obj : S3FileSystem H) (w : world H) (a : get_args).
Implicit Types (e : exn) (f : gmap string (list byte)).

Lemma call_get_run fs_obj a w (r : outcome value) (h' : H) f' :
  get fs_obj a (handle_state w) (local_files w) = (r, (h', f')) →
  call_get fs_obj a w = (r, World h' f' (stdout w) (get_calls w ++ [a])).
Proof. intros Hget. unfold call_get. now rewrite Hget. Qed.

(** What [import_bucket_from_ssp_cloud] does, by the outcome of [get]. *)
Lemma import_bucket_run fs_obj (src dst : string) (rec : option bool) w
    (r : outcome value) (h' : H) f' :
  let a := GetArgs src dst (Some (default true rec)) in
  get fs_obj a (handle_state w) (local_files w) = (r, (h', f')) →
  import_bucket_from_ssp_cloud fs_obj src dst rec w =
    match r with
    | Returned _ =>
        (Returned VNone,
         World h' f' (stdout w ++ [bucket_downloaded src dst]) (get_calls w ++ [a]))
    | Raised e =>
        if isinstance e PermissionError then
          (Returned VNone,
           World h' f' (stdout w ++ [no_permission src]) (get_calls w ++ [a]))
        else (Raised e, World h' f' (stdout w) (get_calls w ++ [a]))
    end.
Proof.
  intros a Hget. subst a.
  cbv beta zeta delta [import_bucket_from_ssp_cloud bind try_except].
  rewrite (call_get_run _ _ _ _ _ _ Hget).
  destruct r as [v|e]; simpl; [reflexivity|].
  destruct (isinstance e PermissionError); reflexivity.
Qed.

(** What [import_file_from_ssp_cloud] does, by the outcome of [get]. *)
Lemma import_file_run fs_obj (src dst : string) w
    (r : outcome value) (h' : H) f' :
  let a := GetArgs src dst None in
  get fs_obj a (handle_state w) (local_files w) = (r, (h', f')) →
  import_file_from_ssp_cloud fs_obj src dst w =
    match r with
    | Returned _ =>
        (Returned VNone,
         World h' f' (stdout w ++ [file_downloaded src dst]) (get_calls w ++ [a]))
    | Raised e =>
        if isinstance e PermissionError then
          (Returned VNone,
           World h' f' (stdout w ++ [no_permission src]) (get_calls w ++ [a]))
        else if isinstance e FileNotFoundError then
          (Returned VNone,
           World h' f' (stdout w ++ [does_not_exist src]) (get_calls w ++ [a]))
        else (Raised e, World h' f' (stdout w) (get_calls w ++ [a]))
    end.
Proof.
  intros a Hget. subst a.
  cbv beta zeta delta [import_file_from_ssp_cloud bind try_except].
  rewrite (call_get_run _ _ _ _ _ _ Hget).
  destruct r as [v|e]; simpl; [reflexivity|].
  destruct (isinstance e PermissionError); [reflexivity|].
  destruct (isinstance e FileNotFoundError); reflexivity.
Qed.

End Run.

(** ** The messages name their arguments *)

Lemma no_permission_mentions (x : string) : mentions (no_permission x) x.
Proof. now exists "You tried to import ", (" but you do not have the right permission" +:+ " to do so !"). Qed.

Lemma does_not_exist_mentions (x : string) : mentions (does_not_exist x) x.
Proof. now exists "The file ", " does not exist". Qed.

Lemma warnings_differ (x : string) : no_permission x ≠ does_not_exist x.
Proof. unfold no_permission, does_not_exist. simpl. discriminate. Qed.

(** ** The scenarios of the specification, run on the test double *)

Example scenario_file_exists :
  import_file_from_ssp_cloud mock_fs "bucket/readme.txt" "./readme.txt" w0 =
  (Returned VNone,
   World mock_store {[ "./readme.txt" := readme ]}
     ["The file bucket/readme.txt has been downloaded to ./readme.txt"]
     [GetArgs "bucket/readme.txt" "./readme.txt" None]).
Proof. vm_compute. reflexivity. Qed.

Example scenario_file_absent :
  import_file_from_ssp_cloud mock_fs "bucket/missing.txt" "./missing.txt" w0 =
  (Returned VNone,
   World mock_store ∅
     ["The file bucket/missing.txt does not exist"]
     [GetArgs "bucket/missing.txt" "./missing.txt" None]).
Proof. vm_compute. reflexivity. Qed.

Example scenario_bucket_forbidden :
  import_bucket_from_ssp_cloud mock_fs "bucket/secret" "./data" (Some true) w0 =
  (Returned VNone,
   World mock_store ∅
     ["You tried to import bucket/secret but you do not have the right permission to do so !"]
     [GetArgs "bucket/secret" "./data" (Some true)]).
Proof. vm_compute. reflexivity. Qed.

Example scenario_bucket_absent :
  import_bucket_from_ssp_cloud mock_fs "bucket/nothing" "./data" None w0 =
  (Raised (Exn FileNotFoundError "bucket/nothing"),
   World mock_store ∅ [] [GetArgs "bucket/nothing" "./data" (Some true)]).
Proof. vm_compute. reflexivity. Qed.

(** ** Calls made to [get], and files written *)

Section Frame.

Context {H : Type}.
Implicit Types (fs_obj : S3FileSystem H) (w : world H).

(** Whatever [get] does, it is called once, with the keyword [recursive]. *)
Lemma import_bucket_calls fs_obj (src dst : string) (rec : option bool) w :
  get_calls (import_bucket_from_ssp_cloud fs_obj src dst rec w).2 =
  get_calls w ++ [GetArgs src dst (Some (default true rec))].
Proof.
  destruct (get fs_obj (GetArgs src dst (Some (default true rec)))
              (handle_state w) (local_files w)) as [r [h' f']] eqn:Hget.
  rewrite (import_bucket_run _ _ _ _ _ _ _ _ Hget).
  destruct r as [v|e]; [reflexivity|].
  now destruct (isinstance e PermissionError).
Qed.

(** Whatever [get] does, it is called once, with two arguments. *)
Lemma import_file_calls fs_obj (src dst : string) w :
  get_calls (import_file_from_ssp_cloud fs_obj src dst w).2 =
  get_calls w ++ [GetArgs src dst None].
Proof.
  destruct (get fs_obj (GetArgs src dst None)
              (handle_state w) (local_files w)) as [r [h' f']] eqn:Hget.
  rewrite (import_file_run _ _ _ _ _ _ _ Hget).
  destruct r as [v|e]; [reflexivity|].
  destruct (isinstance e PermissionError); [reflexivity|].
  now destruct (isinstance e FileNotFoundError).
Qed.

(** The local files after a call are the files as [get] left them. *)
Lemma import_bucket_files fs_obj (src dst : string) (rec : option bool) w :
  local_files (import_bucket_from_ssp_cloud fs_obj src dst rec w).2 =
  (get fs_obj (GetArgs src dst (Some (default true rec)))
     (handle_state w) (local_files w)).2.2.
Proof.
  destruct (get fs_obj _ (handle_state w) (local_files w))
    as [r [h' f']] eqn:Hget.
  rewrite (import_bucket_run _ _ _ _ _ _ _ _ Hget).
  destruct r as [v|e]; [reflexivity|].
  now destruct (isinstance e PermissionError).
Qed.

Lemma import_file_files fs_obj (src dst : string) w :
  local_files (import_file_from_ssp_cloud fs_obj src dst w).2 =
  (get fs_obj (GetArgs src dst None) (handle_state w) (local_files w)).2.2.
Proof.
  destruct (get fs_obj _ (handle_state w) (local_files w))
    as [r [h' f']] eqn:Hget.
  rewrite (import_file_run _ _ _ _ _ _ _ Hget).
  destruct r as [v|e]; [reflexivity|].
  destruct (isinstance e PermissionError); [reflexivity|].
  now destruct (isinstance e FileNotFoundError).
Qed.

End Frame.

(** ** Properties of the module *)

(** C1, as stated, fails.  An instance of a class that derives from both
    [FileNotFoundError] and [PermissionError] is a not-found failure, yet
    [import_file_from_ssp_cloud] prints the permission warning for it, not
    the not-found warning: the clause [except PermissionError] comes
    first. *)
Lemma import_file_not_found_warning_counterexample :
  get gone_fs (GetArgs "bucket/gone.txt" "./gone.txt" None)
    (handle_state w_gone) (local_files w_gone)
    = (Raised (Exn Gone "gone"), ((), ∅))
  ∧ isinstance (Exn Gone "gone") FileNotFoundError = true
  ∧ import_file_from_ssp_cloud gone_fs "bucket/gone.txt" "./gone.txt" w_gone =
    (Returned VNone,
     World () ∅ [no_permission "bucket/gone.txt"]
       [GetArgs "bucket/gone.txt" "./gone.txt" None])
  ∧ import_file_from_ssp_cloud gone_fs "bucket/gone.txt" "./gone.txt" w_gone ≠
    (Returned VNone,
     World () ∅ [does_not_exist "bucket/gone.txt"]
       [GetArgs "bucket/gone.txt" "./gone.txt" None]).
Proof.
  assert (Hrun : import_file_from_ssp_cloud gone_fs "bucket/gone.txt"
                   "./gone.txt" w_gone =
                 (Returned VNone,
                  World () ∅ [no_permission "bucket/gone.txt"]
                    [GetArgs "bucket/gone.txt" "./gone.txt" None]))
    by (vm_compute; reflexivity).
  split; [reflexivity|]. split; [vm_compute; reflexivity|].
  split; [exact Hrun|].
  rewrite Hrun. intros Heq.
  assert (Hout : no_permission "bucket/gone.txt"
                 = does_not_exist "bucket/gone.txt") by congruence.
  revert Hout. apply warnings_differ.
Qed.

(** C1, amended.  When [get] raises a [PermissionError] or a
    [FileNotFoundError] inside [import_file_from_ssp_cloud], the function
    returns normally and prints one warning.  The warning is the permission
    warning for every instance of [PermissionError], also one that is an
    instance of [FileNotFoundError] too; it is the not-found warning for an
    instance of [FileNotFoundError] that is not an instance of
    [PermissionError].  Both warnings name the source and they differ. *)
Theorem import_file_catches_permission_and_not_found
    {H : Type} (fs_obj : S3FileSystem H) (src dst : string) (w : world H)
    (e : exn) (h' : H) (f' : gmap string (list byte)) :
  get fs_obj (GetArgs src dst None) (handle_state w) (local_files w)
    = (Raised e, (h', f')) →
  (isinstance e PermissionError = true →
   import_file_from_ssp_cloud fs_obj src dst w =
     (Returned VNone,
      World h' f' (stdout w ++ [no_permission src])
        (get_calls w ++ [GetArgs src dst None])))
  ∧ (isinstance e FileNotFoundError = true →
     isinstance e PermissionError = false →
     import_file_from_ssp_cloud fs_obj src dst w =
       (Returned VNone,
        World h' f' (stdout w ++ [does_not_exist src])
          (get_calls w ++ [GetArgs src dst None])))
  ∧ (isinstance e PermissionError = true ∨
     isinstance e FileNotFoundError = true →
     ∃ warning : string,
       import_file_from_ssp_cloud fs_obj src dst w =
         (Returned VNone,
          World h' f' (stdout w ++ [warning])
            (get_calls w ++ [GetArgs src dst None]))
       ∧ (warning = no_permission src ∨ warning = does_not_exist src))
  ∧ mentions (no_permission src) src
  ∧ mentions (does_not_exist src) src
  ∧ no_permission src ≠ does_not_exist src.
Proof.
  intros Hget.
  pose proof (import_file_run _ src dst _ _ _ _ Hget) as Hrun.
  cbv beta iota zeta in Hrun.
  split; [|split; [|split]].
  - intros Hperm. now rewrite Hperm in Hrun.
  - intros Hnf Hperm. now rewrite Hperm, Hnf in Hrun.
  - intros Hkind.
    destruct (isinstance e PermissionError) eqn:Hperm; [eauto|].
    destruct Hkind as [?|Hnf]; [discriminate|].
    rewrite Hnf in Hrun. eauto.
  - auto using no_permission_mentions, does_not_exist_mentions, warnings_differ.
Qed.

Lemma import_file_catches_permission_and_not_found_witness :
  import_file_from_ssp_cloud mock_fs "bucket/secret" "./secret.txt" w0 =
    (Returned VNone,
     World mock_store ∅ [no_permission "bucket/secret"]
       [GetArgs "bucket/secret" "./secret.txt" None])
  ∧ import_file_from_ssp_cloud mock_fs "bucket/missing.txt" "./missing.txt" w0 =
    (Returned VNone,
     World mock_store ∅ [does_not_exist "bucket/missing.txt"]
       [GetArgs "bucket/missing.txt" "./missing.txt" None])
  ∧ import_file_from_ssp_cloud gone_fs "bucket/gone.txt" "./gone.txt" w_gone =
    (Returned VNone,
     World () ∅ [no_permission "bucket/gone.txt"]
       [GetArgs "bucket/gone.txt" "./gone.txt" None]).
Proof.
  split; [|split].
  - apply (proj1 (import_file_catches_permission_and_not_found
                    mock_fs "bucket/secret" "./secret.txt" w0
                    (Exn PermissionError "Access Denied") mock_store ∅ eq_refl)).
    reflexivity.
  - apply (proj1 (proj2 (import_file_catches_permission_and_not_found
                    mock_fs "bucket/missing.txt" "./missing.txt" w0
                    (Exn FileNotFoundError "bucket/missing.txt") mock_store ∅
                    eq_refl))); reflexivity.
  - apply (proj1 (import_file_catches_permission_and_not_found
                    gone_fs "bucket/gone.txt" "./gone.txt" w_gone
                    (Exn Gone "gone") () ∅ eq_refl)).
    reflexivity.
Defined.

(** C2, as stated, fails.  An instance of a class that derives from both
    [FileNotFoundError] and [PermissionError] is a not-found failure, and
    [import_bucket_from_ssp_cloud] catches it: it matches the clause
    [except PermissionError]. *)
Lemma import_bucket_not_found_caught_counterexample :
  get gone_fs (GetArgs "bucket/gone" "./gone" (Some true))
    (handle_state w_gone) (local_files w_gone)
    = (Raised (Exn Gone "gone"), ((), ∅))
  ∧ isinstance (Exn Gone "gone") FileNotFoundError = true
  ∧ import_bucket_from_ssp_cloud gone_fs "bucket/gone" "./gone" None w_gone =
    (Returned VNone,
     World () ∅ [no_permission "bucket/gone"]
       [GetArgs "bucket/gone" "./gone" (Some true)])
  ∧ import_bucket_from_ssp_cloud gone_fs "bucket/gone" "./gone" None w_gone ≠
    (Raised (Exn Gone "gone"),
     World () ∅ [] [GetArgs "bucket/gone" "./gone" (Some true)]).
Proof.
  assert (Hrun : import_bucket_from_ssp_cloud gone_fs "bucket/gone" "./gone"
                   None w_gone =
                 (Returned VNone,
                  World () ∅ [no_permission "bucket/gone"]
                    [GetArgs "bucket/gone" "./gone" (Some true)]))
    by (vm_compute; reflexivity).
  split; [reflexivity|]. split; [vm_compute; reflexivity|].
  split; [exact Hrun|].
  rewrite Hrun. discriminate.
Qed.

(** C2, amended.  When [get] raises, inside
    [import_bucket_from_ssp_cloud], a [FileNotFoundError] that is not an
    instance of [PermissionError] as well, no handler takes it: the same
    exception reaches the caller and nothing is printed. *)
Theorem import_bucket_not_found_propagates
    {H : Type} (fs_obj : S3FileSystem H) (src dst : string)
    (rec : option bool) (w : world H)
    (e : exn) (h' : H) (f' : gmap string (list byte)) :
  get fs_obj (GetArgs src dst (Some (default true rec)))
    (handle_state w) (local_files w) = (Raised e, (h', f')) →
  isinstance e FileNotFoundError = true →
  isinstance e PermissionError = false →
  import_bucket_from_ssp_cloud fs_obj src dst rec w =
    (Raised e,
     World h' f' (stdout w)
       (get_calls w ++ [GetArgs src dst (Some (default true rec))])).
Proof.
  intros Hget _ Hperm.
  rewrite (import_bucket_run _ _ _ _ _ _ _ _ Hget).
  now rewrite Hperm.
Qed.

Lemma import_bucket_not_found_propagates_witness :
  import_bucket_from_ssp_cloud mock_fs "bucket/nothing" "./data" None w0 =
    (Raised (Exn FileNotFoundError "bucket/nothing"),
     World mock_store ∅ [] [GetArgs "bucket/nothing" "./data" (Some true)]).
Proof.
  apply (import_bucket_not_found_propagates
           mock_fs "bucket/nothing" "./data" None w0
           (Exn FileNotFoundError "bucket/nothing") mock_store ∅);
    reflexivity.
Defined.

(** C3.  When [get] raises a [PermissionError] inside
    [import_bucket_from_ssp_cloud], the function returns normally after
    printing one warning that names the bucket. *)
Theorem import_bucket_catches_permission
    {H : Type} (fs_obj : S3FileSystem H) (src dst : string)
    (rec : option bool) (w : world H)
    (e : exn) (h' : H) (f' : gmap string (list byte)) :
  get fs_obj (GetArgs src dst (Some (default true rec)))
    (handle_state w) (local_files w) = (Raised e, (h', f')) →
  isinstance e PermissionError = true →
  import_bucket_from_ssp_cloud fs_obj src dst rec w =
    (Returned VNone,
     World h' f' (stdout w ++ [no_permission src])
       (get_calls w ++ [GetArgs src dst (Some (default true rec))]))
  ∧ mentions (no_permission src) src.
Proof.
  intros Hget Hperm. split; [|apply no_permission_mentions].
  erewrite import_bucket_run by eassumption.
  simpl. now rewrite Hperm.
Qed.

Lemma import_bucket_catches_permission_witness :
  import_bucket_from_ssp_cloud mock_fs "bucket/secret" "./data" (Some true) w0 =
    (Returned VNone,
     World mock_store ∅ [no_permission "bucket/secret"]
       [GetArgs "bucket/secret" "./data" (Some true)])
  ∧ mentions (no_permission "bucket/secret") "bucket/secret".
Proof.
  apply (import_bucket_catches_permission
           mock_fs "bucket/secret" "./data" (Some true) w0
           (Exn PermissionError "Access Denied") mock_store ∅);
    reflexivity.
Defined.

(** C4.  An exception that is neither a [PermissionError] nor a
    [FileNotFoundError] is handled by neither function: it reaches the
    caller as raised, and nothing is printed. *)
Theorem other_failures_propagate
    {H : Type} (fs_obj : S3FileSystem H) (src dst : string)
    (rec : option bool) (w : world H)
    (e : exn) (h' : H) (f' : gmap string (list byte)) :
  isinstance e PermissionError = false →
  isinstance e FileNotFoundError = false →
  (get fs_obj (GetArgs src dst (Some (default true rec)))
     (handle_state w) (local_files w) = (Raised e, (h', f')) →
   import_bucket_from_ssp_cloud fs_obj src dst rec w =
     (Raised e,
      World h' f' (stdout w)
        (get_calls w ++ [GetArgs src dst (Some (default true rec))])))
  ∧ (get fs_obj (GetArgs src dst None)
       (handle_state w) (local_files w) = (Raised e, (h', f')) →
     import_file_from_ssp_cloud fs_obj src dst w =
       (Raised e,
        World h' f' (stdout w) (get_calls w ++ [GetArgs src dst None]))).
Proof.
  intros Hperm Hnf. split; intros Hget.
  - rewrite (import_bucket_run _ _ _ _ _ _ _ _ Hget). now rewrite Hperm.
  - rewrite (import_file_run _ _ _ _ _ _ _ Hget). now rewrite Hperm, Hnf.
Qed.

Lemma other_failures_propagate_witness :
  import_bucket_from_ssp_cloud mock_fs "bucket/offline" "./x" None w0 =
    (Raised (Exn ConnectionError "Connection reset"),
     World mock_store ∅ [] [GetArgs "bucket/offline" "./x" (Some true)])
  ∧ import_file_from_ssp_cloud mock_fs "bucket/offline" "./x" w0 =
    (Raised (Exn ConnectionError "Connection reset"),
     World mock_store ∅ [] [GetArgs "bucket/offline" "./x" None]).
Proof.
  pose proof (other_failures_propagate mock_fs "bucket/offline" "./x" None w0
                (Exn ConnectionError "Connection reset") mock_store ∅
                eq_refl eq_refl) as [Hbucket Hfile].
  split; [apply Hbucket | apply Hfile]; reflexivity.
Defined.

(** C5.  When [get] returns, each function prints one line:
    "The bucket X has been downloaded to Y" for the bucket,
    "The file X has been downloaded to Y" for the file, with X the source
    and Y the destination it was given. *)
Theorem success_message
    {H : Type} (fs_obj : S3FileSystem H) (x y : string)
    (rec : option bool) (w : world H)
    (v : value) (h' : H) (f' : gmap string (list byte)) :
  (get fs_obj (GetArgs x y (Some (default true rec)))
     (handle_state w) (local_files w) = (Returned v, (h', f')) →
   import_bucket_from_ssp_cloud fs_obj x y rec w =
     (Returned VNone,
      World h' f'
        (stdout w ++ ["The bucket " +:+ x +:+ " has been downloaded to " +:+ y])
        (get_calls w ++ [GetArgs x y (Some (default true rec))])))
  ∧ (get fs_obj (GetArgs x y None)
       (handle_state w) (local_files w) = (Returned v, (h', f')) →
     import_file_from_ssp_cloud fs_obj x y w =
       (Returned VNone,
        World h' f'
          (stdout w ++ ["The file " +:+ x +:+ " has been downloaded to " +:+ y])
          (get_calls w ++ [GetArgs x y None]))).
Proof.
  split; intros Hget.
  - exact (import_bucket_run _ _ _ _ _ _ _ _ Hget).
  - exact (import_file_run _ _ _ _ _ _ _ Hget).
Qed.

Lemma success_message_witness :
  import_bucket_from_ssp_cloud mock_fs "bucket/readme.txt" "./data" None w0 =
    (Returned VNone,
     World mock_store {[ "./data" := readme ]}
       ["The bucket bucket/readme.txt has been downloaded to ./data"]
       [GetArgs "bucket/readme.txt" "./data" (Some true)])
  ∧ import_file_from_ssp_cloud mock_fs "bucket/readme.txt" "./readme.txt" w0 =
    (Returned VNone,
     World mock_store {[ "./readme.txt" := readme ]}
       ["The file bucket/readme.txt has been downloaded to ./readme.txt"]
       [GetArgs "bucket/readme.txt" "./readme.txt" None]).
Proof.
  split.
  - apply (proj1 (success_message mock_fs "bucket/readme.txt" "./data" None w0
                    VNone mock_store {[ "./data" := readme ]})).
    reflexivity.
  - apply (proj2 (success_message mock_fs "bucket/readme.txt" "./readme.txt"
                    None w0 VNone mock_store {[ "./readme.txt" := readme ]})).
    reflexivity.
Defined.

(** C6.  Whenever a function completes (after a successful [get], after a
    caught [PermissionError], and for the file after a caught
    [FileNotFoundError]) it returns [None]; the caller gets the same value
    in all these cases. *)
Theorem no_return_value
    {H : Type} (fs_obj : S3FileSystem H) (src dst : string)
    (rec : option bool) (w : world H) :
  let rb := (get fs_obj (GetArgs src dst (Some (default true rec)))
               (handle_state w) (local_files w)).1 in
  let rf := (get fs_obj (GetArgs src dst None)
               (handle_state w) (local_files w)).1 in
  ((∃ v, rb = Returned v) ∨
   (∃ e, rb = Raised e ∧ isinstance e PermissionError = true) →
   (import_bucket_from_ssp_cloud fs_obj src dst rec w).1 = Returned VNone)
  ∧ ((∃ v, rf = Returned v) ∨
     (∃ e, rf = Raised e ∧ isinstance e PermissionError = true) ∨
     (∃ e, rf = Raised e ∧ isinstance e FileNotFoundError = true) →
     (import_file_from_ssp_cloud fs_obj src dst w).1 = Returned VNone).
Proof.
  intros rb rf. split.
  - subst rb.
    destruct (get fs_obj (GetArgs src dst (Some (default true rec))) _ _)
      as [r [h' f']] eqn:Hget.
    rewrite (import_bucket_run _ _ _ _ _ _ _ _ Hget). simpl.
    intros [[v ->] | (e & -> & Hperm)]; [reflexivity|].
    now rewrite Hperm.
  - subst rf.
    destruct (get fs_obj (GetArgs src dst None) _ _)
      as [r [h' f']] eqn:Hget.
    rewrite (import_file_run _ _ _ _ _ _ _ Hget). simpl.
    intros [[v ->] | [(e & -> & Hperm) | (e & -> & Hnf)]].
    + reflexivity.
    + now rewrite Hperm.
    + destruct (isinstance e PermissionError); [reflexivity|].
      now rewrite Hnf.
Qed.

Lemma no_return_value_witness :
  (import_bucket_from_ssp_cloud mock_fs "bucket/secret" "./x" None w0).1
    = Returned VNone
  ∧ (import_file_from_ssp_cloud mock_fs "bucket/missing.txt" "./x" w0).1
    = Returned VNone
  ∧ (import_file_from_ssp_cloud mock_fs "bucket/readme.txt" "./x" w0).1
    = Returned VNone.
Proof.
  split; [|split].
  - apply (proj1 (no_return_value mock_fs "bucket/secret" "./x" None w0)).
    right. exists (Exn PermissionError "Access Denied"). split; reflexivity.
  - apply (proj2 (no_return_value mock_fs "bucket/missing.txt" "./x" None w0)).
    right; right. exists (Exn FileNotFoundError "bucket/missing.txt").
    split; reflexivity.
  - apply (proj2 (no_return_value mock_fs "bucket/readme.txt" "./x" None w0)).
    left. exists VNone. reflexivity.
Defined.


(** C8.  When [get] raises a [PermissionError], the function writes nothing
    itself: the local files after the call are the files as [get] left them,
    so a [get] that left the destination alone leaves it unchanged. *)
Theorem permission_denied_writes_nothing
    {H : Type} (fs_obj : S3FileSystem H) (src dst : string)
    (rec : option bool) (w : world H)
    (e : exn) (h' : H) (f' : gmap string (list byte)) :
  isinstance e PermissionError = true →
  (get fs_obj (GetArgs src dst (Some (default true rec)))
     (handle_state w) (local_files w) = (Raised e, (h', f')) →
   let w' := (import_bucket_from_ssp_cloud fs_obj src dst rec w).2 in
   local_files w' = f' ∧
   (∀ p : string, f' !! p = local_files w !! p →
                  local_files w' !! p = local_files w !! p))
  ∧ (get fs_obj (GetArgs src dst None)
       (handle_state w) (local_files w) = (Raised e, (h', f')) →
     let w' := (import_file_from_ssp_cloud fs_obj src dst w).2 in
     local_files w' = f' ∧
     (∀ p : string, f' !! p = local_files w !! p →
                    local_files w' !! p = local_files w !! p)).
Proof.
  intros _. split; intros Hget w'; subst w'.
  - rewrite import_bucket_files, Hget. simpl. auto.
  - rewrite import_file_files, Hget. simpl. auto.
Qed.

Lemma permission_denied_writes_nothing_witness :
  local_files (import_bucket_from_ssp_cloud mock_fs "bucket/secret" "./data"
                 None w0).2 = local_files w0
  ∧ local_files (import_file_from_ssp_cloud mock_fs "bucket/secret" "./s.txt"
                   w0).2 !! "./s.txt" = local_files w0 !! "./s.txt".
Proof.
  split.
  - apply (proj1 (permission_denied_writes_nothing
                    mock_fs "bucket/secret" "./data" None w0
                    (Exn PermissionError "Access Denied") mock_store ∅
                    eq_refl)).
    reflexivity.
  - apply (proj2 (permission_denied_writes_nothing
                    mock_fs "bucket/secret" "./s.txt" None w0
                    (Exn PermissionError "Access Denied") mock_store ∅
                    eq_refl)); reflexivity.
Defined.

(** C9.  Two calls of [import_file_from_ssp_cloud] with the same arguments,
    where [get] succeeds both times and leaves the same content at the
    destination, give the destination the content one call gives it, and
    print the same success line twice. *)
Theorem import_file_twice
    {H : Type} (fs_obj : S3FileSystem H) (src dst : string) (w : world H)
    (v1 v2 : value) (h1 h2 : H) (f1 f2 : gmap string (list byte)) :
  get fs_obj (GetArgs src dst None) (handle_state w) (local_files w)
    = (Returned v1, (h1, f1)) →
  get fs_obj (GetArgs src dst None) h1 f1 = (Returned v2, (h2, f2)) →
  f2 !! dst = f1 !! dst →
  let w1 := (import_file_from_ssp_cloud fs_obj src dst w).2 in
  let w2 := (import_file_from_ssp_cloud fs_obj src dst w1).2 in
  local_files w2 !! dst = local_files w1 !! dst
  ∧ local_files w1 !! dst = f1 !! dst
  ∧ stdout w2 = stdout w ++ [file_downloaded src dst; file_downloaded src dst]
  ∧ (import_file_from_ssp_cloud fs_obj src dst w).1 = Returned VNone
  ∧ (import_file_from_ssp_cloud fs_obj src dst w1).1 = Returned VNone.
Proof.
  intros Hget1 Hget2 Hsame w1 w2.
  assert (Hw1 : import_file_from_ssp_cloud fs_obj src dst w =
                (Returned VNone,
                 World h1 f1 (stdout w ++ [file_downloaded src dst])
                   (get_calls w ++ [GetArgs src dst None])))
    by exact (import_file_run _ _ _ _ _ _ _ Hget1).
  assert (Hw2 : import_file_from_ssp_cloud fs_obj src dst w1 =
                (Returned VNone,
                 World h2 f2 (stdout w1 ++ [file_downloaded src dst])
                   (get_calls w1 ++ [GetArgs src dst None]))).
  { apply (import_file_run fs_obj src dst w1 (Returned v2) h2 f2).
    subst w1. rewrite Hw1. exact Hget2. }
  subst w2. rewrite Hw2. subst w1. rewrite Hw1. simpl.
  repeat split; try done.
  now rewrite <- app_assoc.
Qed.

Lemma import_file_twice_witness :
  let w1 := (import_file_from_ssp_cloud mock_fs "bucket/readme.txt"
               "./readme.txt" w0).2 in
  let w2 := (import_file_from_ssp_cloud mock_fs "bucket/readme.txt"
               "./readme.txt" w1).2 in
  local_files w2 !! "./readme.txt" = Some readme
  ∧ stdout w2 =
    ["The file bucket/readme.txt has been downloaded to ./readme.txt";
     "The file bucket/readme.txt has been downloaded to ./readme.txt"].
Proof.
  intros w1 w2.
  destruct (import_file_twice mock_fs "bucket/readme.txt" "./readme.txt" w0
              VNone VNone mock_store mock_store
              {[ "./readme.txt" := readme ]} {[ "./readme.txt" := readme ]}
              eq_refl eq_refl eq_refl) as (H21 & H1 & Hout & _).
  split.
  - etrans; [exact H21|]. etrans; [exact H1|]. reflexivity.
  - exact Hout.
Defined.


(** ** Further properties of the two functions *)

Section Steps.

Context {H : Type}.
Implicit Types (fs_obj : S3FileSystem H) (w : world H).

(** [import_bucket_from_ssp_cloud] in one equation, for every outcome of
    [get]. *)
Lemma import_bucket_step fs_obj (src dst : string) (rec : option bool) w :
  let a := GetArgs src dst (Some (default true rec)) in
  let g := get fs_obj a (handle_state w) (local_files w) in
  import_bucket_from_ssp_cloud fs_obj src dst rec w =
    (match g.1 with
     | Returned _ => Returned VNone
     | Raised e => if isinstance e PermissionError then Returned VNone
                   else Raised e
     end,
     World g.2.1 g.2.2
       (stdout w ++
        match g.1 with
        | Returned _ => [bucket_downloaded src dst]
        | Raised e => if isinstance e PermissionError then [no_permission src]
                      else []
        end)
       (get_calls w ++ [a])).
Proof.
  intros a g. subst a g.
  destruct (get fs_obj _ (handle_state w) (local_files w))
    as [r [h' f']] eqn:Hget.
  rewrite (import_bucket_run _ _ _ _ _ _ _ _ Hget). simpl.
  destruct r as [v|e]; [reflexivity|].
  destruct (isinstance e PermissionError); [reflexivity|].
  now rewrite app_nil_r.
Qed.

(** [import_file_from_ssp_cloud] in one equation, for every outcome of
    [get]. *)
Lemma import_file_step fs_obj (src dst : string) w :
  let a := GetArgs src dst None in
  let g := get fs_obj a (handle_state w) (local_files w) in
  import_file_from_ssp_cloud fs_obj src dst w =
    (match g.1 with
     | Returned _ => Returned VNone
     | Raised e =>
         if isinstance e PermissionError then Returned VNone
         else if isinstance e FileNotFoundError then Returned VNone
         else Raised e
     end,
     World g.2.1 g.2.2
       (stdout w ++
        match g.1 with
        | Returned _ => [file_downloaded src dst]
        | Raised e =>
            if isinstance e PermissionError then [no_permission src]
            else if isinstance e FileNotFoundError then [does_not_exist src]
            else []
        end)
       (get_calls w ++ [a])).
Proof.
  intros a g. subst a g.
  destruct (get fs_obj _ (handle_state w) (local_files w))
    as [r [h' f']] eqn:Hget.
  rewrite (import_file_run _ _ _ _ _ _ _ Hget). simpl.
  destruct r as [v|e]; [reflexivity|].
  destruct (isinstance e PermissionError); [reflexivity|].
  destruct (isinstance e FileNotFoundError); [reflexivity|].
  now rewrite app_nil_r.
Qed.

(** A completed call printed one line; a call that raised printed none. *)
Lemma import_bucket_lines fs_obj (src dst : string) (rec : option bool) w :
  match (import_bucket_from_ssp_cloud fs_obj src dst rec w).1 with
  | Returned _ =>
      ∃ line, stdout (import_bucket_from_ssp_cloud fs_obj src dst rec w).2
              = stdout w ++ [line]
  | Raised _ =>
      stdout (import_bucket_from_ssp_cloud fs_obj src dst rec w).2 = stdout w
  end.
Proof.
  rewrite import_bucket_step. simpl.
  destruct (get fs_obj _ _ _).1 as [v|e]; [eauto|].
  destruct (isinstance e PermissionError); [eauto|apply app_nil_r].
Qed.

Lemma import_file_lines fs_obj (src dst : string) w :
  match (import_file_from_ssp_cloud fs_obj src dst w).1 with
  | Returned _ =>
      ∃ line, stdout (import_file_from_ssp_cloud fs_obj src dst w).2
              = stdout w ++ [line]
  | Raised _ =>
      stdout (import_file_from_ssp_cloud fs_obj src dst w).2 = stdout w
  end.
Proof.
  rewrite import_file_step. simpl.
  destruct (get fs_obj _ _ _).1 as [v|e]; [eauto|].
  destruct (isinstance e PermissionError); [eauto|].
  destruct (isinstance e FileNotFoundError); [eauto|apply app_nil_r].
Qed.

End Steps.

Lemma append_inj_r (x a b : string) : x +:+ a = x +:+ b → a = b.
Proof.
  induction x as [|c x IH]; simpl; [done|].
  intros Heq. injection Heq as Heq. auto.
Qed.

(** X1.  An exception leaves either function exactly when [get] raised it
    and no [except] clause matches it; it is the exception [get] raised.
    So a call never raises after a [get] that returned, and never raises
    an exception of its own. *)
Theorem exceptions_escape_unchanged
    {H : Type} (fs_obj : S3FileSystem H) (src dst : string)
    (rec : option bool) (w : world H) (e : exn) :
  ((import_bucket_from_ssp_cloud fs_obj src dst rec w).1 = Raised e ↔
   (get fs_obj (GetArgs src dst (Some (default true rec)))
      (handle_state w) (local_files w)).1 = Raised e
   ∧ isinstance e PermissionError = false)
  ∧ ((import_file_from_ssp_cloud fs_obj src dst w).1 = Raised e ↔
     (get fs_obj (GetArgs src dst None)
        (handle_state w) (local_files w)).1 = Raised e
     ∧ isinstance e PermissionError = false
     ∧ isinstance e FileNotFoundError = false).
Proof.
  split.
  - rewrite import_bucket_step. simpl.
    destruct (get fs_obj _ _ _).1 as [v|e0].
    + split; [discriminate | intros [? _]; discriminate].
    + destruct (isinstance e0 PermissionError) eqn:Hperm.
      * split; [discriminate|]. intros [[= ->] Hno]. congruence.
      * split; [intros [= ->]; auto | intros [[= ->] _]; reflexivity].
  - rewrite import_file_step. simpl.
    destruct (get fs_obj _ _ _).1 as [v|e0].
    + split; [discriminate | intros [? _]; discriminate].
    + destruct (isinstance e0 PermissionError) eqn:Hperm.
      { split; [discriminate|]. intros [[= ->] [Hno _]]. congruence. }
      destruct (isinstance e0 FileNotFoundError) eqn:Hnf.
      { split; [discriminate|]. intros [[= ->] [_ Hno]]. congruence. }
      split; [intros [= ->]; auto | intros [[= ->] _]; reflexivity].
Qed.

Lemma exceptions_escape_unchanged_witness :
  (import_bucket_from_ssp_cloud mock_fs "bucket/nothing" "./data" None w0).1
    = Raised (Exn FileNotFoundError "bucket/nothing")
  ∧ isinstance (Exn ConnectionError "Connection reset") PermissionError = false.
Proof.
  split.
  - apply (proj1 (exceptions_escape_unchanged mock_fs "bucket/nothing" "./data"
                    None w0 (Exn FileNotFoundError "bucket/nothing"))).
    split; reflexivity.
  - apply (proj1 (proj2 (exceptions_escape_unchanged mock_fs "bucket/offline"
                           "./x" None w0 (Exn ConnectionError "Connection reset")))).
    reflexivity.
Defined.

(** X2.  Each call prints one line when it completes and none when it
    raises; what was printed before stays in front. *)
Theorem one_line_per_completed_call
    {H : Type} (fs_obj : S3FileSystem H) (src dst : string)
    (rec : option bool) (w : world H) :
  match (import_bucket_from_ssp_cloud fs_obj src dst rec w).1 with
  | Returned _ =>
      ∃ line, stdout (import_bucket_from_ssp_cloud fs_obj src dst rec w).2
              = stdout w ++ [line]
  | Raised _ =>
      stdout (import_bucket_from_ssp_cloud fs_obj src dst rec w).2 = stdout w
  end
  ∧ match (import_file_from_ssp_cloud fs_obj src dst w).1 with
    | Returned _ =>
        ∃ line, stdout (import_file_from_ssp_cloud fs_obj src dst w).2
                = stdout w ++ [line]
    | Raised _ =>
        stdout (import_file_from_ssp_cloud fs_obj src dst w).2 = stdout w
    end.
Proof. split; [apply import_bucket_lines | apply import_file_lines]. Qed.

(** X3.  Neither function writes a file or touches the filesystem object
    by itself: after a call, whatever its outcome, the object's state and
    the local files are those [get] left. *)
Theorem only_get_changes_files
    {H : Type} (fs_obj : S3FileSystem H) (src dst : string)
    (rec : option bool) (w : world H) :
  let gb := get fs_obj (GetArgs src dst (Some (default true rec)))
              (handle_state w) (local_files w) in
  let gf := get fs_obj (GetArgs src dst None)
              (handle_state w) (local_files w) in
  let wb := (import_bucket_from_ssp_cloud fs_obj src dst rec w).2 in
  let wf := (import_file_from_ssp_cloud fs_obj src dst w).2 in
  handle_state wb = gb.2.1 ∧ local_files wb = gb.2.2
  ∧ handle_state wf = gf.2.1 ∧ local_files wf = gf.2.2.
Proof.
  intros gb gf wb wf. subst wb wf.
  rewrite import_bucket_step, import_file_step. simpl. auto.
Qed.

(** X4.  For one source and destination, the lines a function can print
    are pairwise different, so the line tells which outcome took place. *)
Theorem printed_line_tells_outcome (x y : string) :
  file_downloaded x y ≠ no_permission x
  ∧ file_downloaded x y ≠ does_not_exist x
  ∧ does_not_exist x ≠ no_permission x
  ∧ bucket_downloaded x y ≠ no_permission x.
Proof.
  repeat split; try (unfold file_downloaded, bucket_downloaded,
                       does_not_exist, no_permission; simpl; discriminate).
  unfold file_downloaded, does_not_exist. intros Heq.
  apply (append_inj_r "The file ") in Heq.
  apply append_inj_r in Heq. discriminate.
Qed.

(** ** The script *)

Section Script.

Context {H : Type}.
Implicit Types (fs_obj : S3FileSystem H) (w : world H).
Implicit Types (environ : gmap string string).
Implicit Types (ctor : string → H → outcome (S3FileSystem H) * H).

(** One call seen from the script: one more entry in the log of [get], and
    one more line exactly when the call completes. *)
Lemma import_bucket_seq fs_obj (src dst : string) (rec : option bool) w :
  ∃ (r : outcome value) (w' : world H),
    import_bucket_from_ssp_cloud fs_obj src dst rec w = (r, w')
    ∧ get_calls w' = get_calls w ++ [GetArgs src dst (Some (default true rec))]
    ∧ length (stdout w') =
      length (stdout w) + match r with Returned _ => 1 | Raised _ => 0 end.
Proof.
  pose proof (import_bucket_calls fs_obj src dst rec w) as Hcalls.
  pose proof (import_bucket_lines fs_obj src dst rec w) as Hlines.
  destruct (import_bucket_from_ssp_cloud fs_obj src dst rec w) as [r w'].
  exists r, w'. simpl in *. split; [done|]. split; [done|].
  destruct r as [v|e].
  - destruct Hlines as [line ->]. rewrite length_app. reflexivity.
  - rewrite Hlines. lia.
Qed.

Lemma import_file_seq fs_obj (src dst : string) w :
  ∃ (r : outcome value) (w' : world H),
    import_file_from_ssp_cloud fs_obj src dst w = (r, w')
    ∧ get_calls w' = get_calls w ++ [GetArgs src dst None]
    ∧ length (stdout w') =
      length (stdout w) + match r with Returned _ => 1 | Raised _ => 0 end.
Proof.
  pose proof (import_file_calls fs_obj src dst w) as Hcalls.
  pose proof (import_file_lines fs_obj src dst w) as Hlines.
  destruct (import_file_from_ssp_cloud fs_obj src dst w) as [r w'].
  exists r, w'. simpl in *. split; [done|]. split; [done|].
  destruct r as [v|e].
  - destruct Hlines as [line ->]. rewrite length_app. reflexivity.
  - rewrite Hlines. lia.
Qed.

(** The script once the endpoint is read and the object is built. *)
Lemma main_run environ ctor w (endpoint : string) fs_obj (h' : H) :
  environ !! "AWS_S3_ENDPOINT" = Some endpoint →
  ctor ("https://" +:+ endpoint) (handle_state w) = (Returned fs_obj, h') →
  main environ ctor w =
    (import_bucket_from_ssp_cloud fs_obj "maximerichaudeau1/data" "./data" None >>
     import_bucket_from_ssp_cloud fs_obj "maximerichaudeau1/json" "./json" None >>
     import_file_from_ssp_cloud fs_obj
       "maximerichaudeau1/cross_entropy_weighted10_batch64_32_16.pth"
       "./cross_entropy_weighted10_batch64_32_16.pth" >>
     import_file_from_ssp_cloud fs_obj "maximerichaudeau1/test.txt" "./test.txt" >>
     ret ())
      (World h' (local_files w) (stdout w) (get_calls w)).
Proof.
  intros Henv Hctor.
  unfold main at 1, environ_getitem, new_S3FileSystem.
  unfold bind at 1. rewrite Henv.
  unfold bind at 1. rewrite Hctor. reflexivity.
Qed.

(** How far the script got: [n] calls to [get], the first [n] of
    [main_transfers]; one line per call, but none for a call that raised. *)
Lemma main_trace environ ctor w :
  ∃ n : nat,
    (n ≤ 4)%nat
    ∧ get_calls (main environ ctor w).2 = get_calls w ++ take n main_transfers
    ∧ match (main environ ctor w).1 with
      | Returned _ =>
          n = 4 ∧ length (stdout (main environ ctor w).2) = length (stdout w) + 4
      | Raised _ =>
          length (stdout (main environ ctor w).2) = length (stdout w) + pred n
      end.
Proof.
  destruct (environ !! "AWS_S3_ENDPOINT") as [endpoint|] eqn:Henv; cycle 1.
  { exists 0. unfold main, environ_getitem, bind. rewrite Henv. simpl.
    rewrite app_nil_r. repeat split; lia. }
  destruct (ctor ("https://" +:+ endpoint) (handle_state w))
    as [[fs_obj|e] h'] eqn:Hctor; cycle 1.
  { exists 0. unfold main, environ_getitem, new_S3FileSystem, bind.
    rewrite Henv, Hctor. simpl. rewrite app_nil_r. repeat split; lia. }
  rewrite (main_run _ _ _ _ _ _ Henv Hctor).
  set (w1 := World h' (local_files w) (stdout w) (get_calls w)).
  destruct (import_bucket_seq fs_obj "maximerichaudeau1/data" "./data" None w1)
    as (r1 & w2 & E1 & C1 & L1).
  unfold bind. rewrite E1.
  destruct r1 as [v1|e1]; cycle 1.
  { exists 1. simpl in *. rewrite C1, L1. repeat split; lia. }
  destruct (import_bucket_seq fs_obj "maximerichaudeau1/json" "./json" None w2)
    as (r2 & w3 & E2 & C2 & L2).
  rewrite E2.
  destruct r2 as [v2|e2]; cycle 1.
  { exists 2. simpl in *. rewrite C2, C1, L2, L1, <- app_assoc.
    repeat split; lia. }
  destruct (import_file_seq fs_obj
              "maximerichaudeau1/cross_entropy_weighted10_batch64_32_16.pth"
              "./cross_entropy_weighted10_batch64_32_16.pth" w3)
    as (r3 & w4 & E3 & C3 & L3).
  rewrite E3.
  destruct r3 as [v3|e3]; cycle 1.
  { exists 3. simpl in *. rewrite C3, C2, C1, L3, L2, L1, <- !app_assoc.
    repeat split; lia. }
  destruct (import_file_seq fs_obj "maximerichaudeau1/test.txt" "./test.txt" w4)
    as (r4 & w5 & E4 & C4 & L4).
  rewrite E4.
  destruct r4 as [v4|e4].
  - exists 4. simpl in *. rewrite C4, C3, C2, C1, L4, L3, L2, L1, <- !app_assoc.
    repeat split; lia.
  - exists 4. simpl in *. rewrite C4, C3, C2, C1, L4, L3, L2, L1, <- !app_assoc.
    repeat split; lia.
Qed.

End Script.

Section ScriptCompletes.

Context {H : Type}.
Implicit Types (fs_obj : S3FileSystem H) (w : world H).

(** With a [get] that fails only by [PermissionError], both functions
    complete. *)
Lemma import_bucket_completes fs_obj (src dst : string) (rec : option bool) w :
  fails_only_with [PermissionError] fs_obj →
  (import_bucket_from_ssp_cloud fs_obj src dst rec w).1 = Returned VNone.
Proof.
  intros Hfs. rewrite import_bucket_step. simpl.
  destruct (get fs_obj _ _ _).1 as [v|e] eqn:Hget; [reflexivity|].
  apply Hfs in Hget. simpl in Hget. rewrite orb_false_r in Hget.
  now rewrite Hget.
Qed.

Lemma import_file_completes fs_obj (src dst : string) w :
  fails_only_with [PermissionError] fs_obj →
  (import_file_from_ssp_cloud fs_obj src dst w).1 = Returned VNone.
Proof.
  intros Hfs. rewrite import_file_step. simpl.
  destruct (get fs_obj _ _ _).1 as [v|e] eqn:Hget; [reflexivity|].
  apply Hfs in Hget. simpl in Hget. rewrite orb_false_r in Hget.
  now rewrite Hget.
Qed.

End ScriptCompletes.

Lemma private_fs_fails_only_with_permission :
  fails_only_with [PermissionError] private_fs.
Proof.
  intros a h f e. simpl. unfold private_get.
  destruct (h !! ga_source a); simpl; [discriminate|].
  now intros [= <-].
Qed.

(** X5.  Without the variable [AWS_S3_ENDPOINT] the script stops with
    [KeyError] before it does anything; when the constructor, called with
    "https://" followed by the variable's value, raises, the script stops
    with that exception.  In both cases [get] is not called and nothing is
    printed. *)
Theorem main_needs_endpoint_and_object
    {H : Type} (environ : gmap string string)
    (ctor : string → H → outcome (S3FileSystem H) * H) (w : world H) :
  (environ !! "AWS_S3_ENDPOINT" = None →
   main environ ctor w = (Raised (Exn KeyError "AWS_S3_ENDPOINT"), w))
  ∧ (∀ (endpoint : string) (e : exn) (h' : H),
       environ !! "AWS_S3_ENDPOINT" = Some endpoint →
       ctor ("https://" +:+ endpoint) (handle_state w) = (Raised e, h') →
       main environ ctor w =
         (Raised e, World h' (local_files w) (stdout w) (get_calls w))).
Proof.
  split.
  - intros Henv. unfold main, environ_getitem, bind. now rewrite Henv.
  - intros endpoint e h' Henv Hctor.
    unfold main, environ_getitem, new_S3FileSystem, bind.
    now rewrite Henv, Hctor.
Qed.

Lemma main_needs_endpoint_and_object_witness :
  main ∅ connect_mock w0 = (Raised (Exn KeyError "AWS_S3_ENDPOINT"), w0)
  ∧ main demo_environ (λ url h, (Raised (Exn ValueError url), h)) w0 =
    (Raised (Exn ValueError "https://minio.lab.sspcloud.fr"), w0).
Proof.
  split.
  - apply (proj1 (main_needs_endpoint_and_object ∅ connect_mock w0)).
    reflexivity.
  - apply (proj2 (main_needs_endpoint_and_object demo_environ
                    (λ url h, (Raised (Exn ValueError url), h)) w0)
             "minio.lab.sspcloud.fr"); reflexivity.
Defined.

(** X6.  Whatever the environment, the constructor and [get] do, the calls
    the script makes to [get] are the first [n] of its four transfers, in
    order.  A run that ends normally made all four and printed one line for
    each; a run that ends with an exception printed one line for each call
    but the last, and no line when it made no call. *)
Theorem main_calls_in_order
    {H : Type} (environ : gmap string string)
    (ctor : string → H → outcome (S3FileSystem H) * H) (w : world H) :
  ∃ n : nat,
    (n ≤ 4)%nat
    ∧ get_calls (main environ ctor w).2 = get_calls w ++ take n main_transfers
    ∧ match (main environ ctor w).1 with
      | Returned _ =>
          n = 4
          ∧ length (stdout (main environ ctor w).2) = length (stdout w) + n
      | Raised _ =>
          length (stdout (main environ ctor w).2) = length (stdout w) + pred n
      end.
Proof.
  destruct (main_trace environ ctor w) as (n & Hn & Hcalls & Hout).
  exists n. split; [done|]. split; [done|].
  destruct (main environ ctor w).1; [|exact Hout].
  destruct Hout as [-> Hlen]. split; [reflexivity | exact Hlen].
Qed.

(** X7.  A run of the script that ends normally has read the endpoint, made
    all four transfers in order and printed four lines. *)
Theorem main_completed
    {H : Type} (environ : gmap string string)
    (ctor : string → H → outcome (S3FileSystem H) * H) (w : world H) :
  (main environ ctor w).1 = Returned () →
  is_Some (environ !! "AWS_S3_ENDPOINT")
  ∧ get_calls (main environ ctor w).2 = get_calls w ++ main_transfers
  ∧ length (stdout (main environ ctor w).2) = length (stdout w) + 4.
Proof.
  intros Hret. split.
  - destruct (environ !! "AWS_S3_ENDPOINT") eqn:Henv; [eauto|].
    unfold main, environ_getitem, bind in Hret. rewrite Henv in Hret.
    discriminate.
  - destruct (main_trace environ ctor w) as (n & _ & Hcalls & Hout).
    rewrite Hret in Hout. destruct Hout as [-> Hlen].
    split; [exact Hcalls | exact Hlen].
Qed.

Lemma main_completed_witness :
  get_calls (main demo_environ connect_private w0).2 = main_transfers
  ∧ length (stdout (main demo_environ connect_private w0).2) = 4.
Proof.
  destruct (main_completed demo_environ connect_private w0 eq_refl)
    as (_ & Hcalls & Hlen).
  split; [exact Hcalls | exact Hlen].
Defined.

(** X8.  When the first bucket's [get] raises anything but a
    [PermissionError] (a missing bucket, say), the script stops there with
    that exception: the other three transfers are not tried and nothing is
    printed. *)
Theorem main_stops_at_first_uncaught
    {H : Type} (environ : gmap string string)
    (ctor : string → H → outcome (S3FileSystem H) * H) (w : world H)
    (endpoint : string) (fs_obj : S3FileSystem H) (e : exn)
    (h' h1 : H) (f1 : gmap string (list byte)) :
  environ !! "AWS_S3_ENDPOINT" = Some endpoint →
  ctor ("https://" +:+ endpoint) (handle_state w) = (Returned fs_obj, h') →
  get fs_obj (GetArgs "maximerichaudeau1/data" "./data" (Some true))
    h' (local_files w) = (Raised e, (h1, f1)) →
  isinstance e PermissionError = false →
  main environ ctor w =
    (Raised e,
     World h1 f1 (stdout w)
       (get_calls w ++ [GetArgs "maximerichaudeau1/data" "./data" (Some true)])).
Proof.
  intros Henv Hctor Hget Hperm.
  rewrite (main_run _ _ _ _ _ _ Henv Hctor).
  unfold bind.
  rewrite (import_bucket_run fs_obj "maximerichaudeau1/data" "./data" None
             (World h' (local_files w) (stdout w) (get_calls w))
             (Raised e) h1 f1 Hget).
  now rewrite Hperm.
Qed.

Lemma main_stops_at_first_uncaught_witness :
  main demo_environ connect_mock w0 =
    (Raised (Exn FileNotFoundError "maximerichaudeau1/data"),
     World mock_store ∅ []
       [GetArgs "maximerichaudeau1/data" "./data" (Some true)]).
Proof.
  apply (main_stops_at_first_uncaught demo_environ connect_mock w0
           "minio.lab.sspcloud.fr" mock_fs
           (Exn FileNotFoundError "maximerichaudeau1/data") mock_store);
    reflexivity.
Defined.

(** X9.  With a filesystem object whose [get] fails only by
    [PermissionError], the script always runs to its end: a refused transfer
    does not stop the ones after it. *)
Theorem main_survives_permission_failures
    {H : Type} (environ : gmap string string)
    (ctor : string → H → outcome (S3FileSystem H) * H) (w : world H)
    (endpoint : string) (fs_obj : S3FileSystem H) (h' : H) :
  environ !! "AWS_S3_ENDPOINT" = Some endpoint →
  ctor ("https://" +:+ endpoint) (handle_state w) = (Returned fs_obj, h') →
  fails_only_with [PermissionError] fs_obj →
  (main environ ctor w).1 = Returned ()
  ∧ get_calls (main environ ctor w).2 = get_calls w ++ main_transfers
  ∧ length (stdout (main environ ctor w).2) = length (stdout w) + 4.
Proof.
  intros Henv Hctor Hfs.
  assert (Hret : (main environ ctor w).1 = Returned ()).
  { rewrite (main_run _ _ _ _ _ _ Henv Hctor). unfold bind.
    repeat match goal with
    | |- context [import_bucket_from_ssp_cloud fs_obj ?s ?d ?r ?w1] =>
        let E := fresh "E" in
        pose proof (import_bucket_completes fs_obj s d r w1 Hfs) as E;
        destruct (import_bucket_from_ssp_cloud fs_obj s d r w1) as [? ?];
        simpl in E; rewrite E
    | |- context [import_file_from_ssp_cloud fs_obj ?s ?d ?w1] =>
        let E := fresh "E" in
        pose proof (import_file_completes fs_obj s d w1 Hfs) as E;
        destruct (import_file_from_ssp_cloud fs_obj s d w1) as [? ?];
        simpl in E; rewrite E
    end.
    reflexivity. }
  split; [exact Hret|].
  destruct (main_trace environ ctor w) as (n & _ & Hcalls & Hout).
  rewrite Hret in Hout. destruct Hout as [-> Hlen]. auto.
Qed.

Lemma main_survives_permission_failures_witness :
  (main demo_environ connect_private w0).1 = Returned ()
  ∧ get_calls (main demo_environ connect_private w0).2 = main_transfers
  ∧ length (stdout (main demo_environ connect_private w0).2) = 4.
Proof.
  apply (main_survives_permission_failures demo_environ connect_private w0
           "minio.lab.sspcloud.fr" private_fs mock_store eq_refl eq_refl
           private_fs_fails_only_with_permission).
Defined.
